(** * The AI tool executor of lucis-app

    A shallow embedding of [server/tools/ai-executor.ts]: the tool
    [AI_TOOL_EXECUTOR] asks a generation backend for the source text of a
    one-off tool, checks the reply, hands the tool and its input to the
    execution capability [DECO_TOOL_RUN_TOOL] and wraps what comes back in
    an invocation record.

    The reply and the outcome of the execution are untyped data, so the
    embedding starts with the JavaScript values they are made of and with
    the three language operations the handler applies to them: [String(v)],
    truthiness ([!v], [a || b], [if (v)]) and [JSON.stringify(v)].  The
    handler is an [async] function with two [await]s and one [try]/[catch];
    it is embedded in a small monad that threads the calls received by the
    execution capability and propagates thrown values.  Writing to the
    console is not modelled.

    The todo tools of [server/tools/todos.ts], which the generated code is
    told to call, follow: they run against a database given by the
    statements they issue, of which a table in memory is one instance.
    Last come the updaters by which the hooks of the view keep their cached
    list in step with the outputs of these tools. *)

From Stdlib Require Import String Ascii List ZArith Bool Lia.
From Stdlib Require DecimalString QArith_base.
Import ListNotations.

Local Open Scope list_scope.
Local Open Scope string_scope.
Set Warnings "-register-all".

(** ** JavaScript values *)

(** The values that JSON data is made of, and [undefined] for what is
    absent.  A number is an integer-valued one.  An object is a record of
    data: its properties are listed in enumeration order, with distinct
    keys, none of them a name that the conversions of the language look up
    ([toString], [valueOf], [toJSON]). *)
Inductive JsVal : Type :=
| JUndefined
| JNull
| JBool (b : bool)
| JNum (n : Z)
| JStr (s : string)
| JArr (items : list JsVal)
| JObj (props : list (string * JsVal)).

(** The empty object literal [{}]. *)
Definition empty_object : JsVal := JObj [].

(** What can be thrown: an instance of [Error] carrying its message, or
    any other value. *)
Inductive Thrown : Type :=
| ErrorInstance (message : string)
| ThrownValue (v : JsVal).

(** The character U+0022. *)
Definition dquote : string := String "034" EmptyString.

(** The character U+000A. *)
Definition newline : string := String "010" EmptyString.

Module Js.

(** [Number::toString] on an integer-valued number (decimal digits, as
    the language prints them below 10^21). *)
Definition number_to_string (n : Z) : string :=
  DecimalString.NilZero.string_of_int (Z.to_int n).

(** [String(v)].  An array is joined with commas, [null] and [undefined]
    elements giving the empty text; an object gives [[object Object]]. *)
Fixpoint ToString (v : JsVal) : string :=
  match v with
  | JUndefined => "undefined"
  | JNull => "null"
  | JBool true => "true"
  | JBool false => "false"
  | JNum n => number_to_string n
  | JStr s => s
  | JArr items =>
      (fix join (l : list JsVal) : string :=
         match l with
         | [] => ""
         | x :: rest =>
             let piece :=
               match x with
               | JUndefined | JNull => ""
               | _ => ToString x
               end in
             match rest with
             | [] => piece
             | _ :: _ => piece ++ "," ++ join rest
             end
         end) items
  | JObj _ => "[object Object]"
  end.

(** [ToBoolean]: the falsy values are [undefined], [null], [false], [0]
    and the empty string. *)
Definition ToBoolean (v : JsVal) : bool :=
  match v with
  | JUndefined | JNull => false
  | JBool b => b
  | JNum n => negb (n =? 0)%Z
  | JStr s => negb (s =? "")
  | JArr _ | JObj _ => true
  end.

(** [a || b]. *)
Definition or (a b : JsVal) : JsVal := if ToBoolean a then a else b.

(** The first binding of [key] among own properties. *)
Fixpoint lookup (key : string) (props : list (string * JsVal)) : JsVal :=
  match props with
  | [] => JUndefined
  | (k, v) :: rest => if k =? key then v else lookup key rest
  end.

(** [v.key] on a value that is neither [undefined] nor [null], for a key
    that no built-in prototype defines (all keys read here are such):
    an own property of an object, [undefined] otherwise. *)
Definition Get (v : JsVal) (key : string) : JsVal :=
  match v with
  | JObj props => lookup key props
  | _ => JUndefined
  end.

(** [v?.key]. *)
Definition OptGet (v : JsVal) (key : string) : JsVal :=
  match v with
  | JUndefined | JNull => JUndefined
  | _ => Get v key
  end.

(** [haystack.includes(needle)]. *)
Fixpoint includes (haystack needle : string) : bool :=
  prefix needle haystack
  || match haystack with
     | EmptyString => false
     | String _ rest => includes rest needle
     end.

(** One of the sixteen lower-case hexadecimal digits. *)
Definition hex_digit (n : nat) : ascii :=
  match n with
  | 0 => "0" | 1 => "1" | 2 => "2" | 3 => "3" | 4 => "4" | 5 => "5"
  | 6 => "6" | 7 => "7" | 8 => "8" | 9 => "9" | 10 => "a" | 11 => "b"
  | 12 => "c" | 13 => "d" | 14 => "e" | _ => "f"
  end%char.

(** How [JSON.stringify] writes one character inside a string. *)
Definition quote_char (c : ascii) : string :=
  let n := nat_of_ascii c in
  if (n =? 8)%nat then "\b"
  else if (n =? 9)%nat then "\t"
  else if (n =? 10)%nat then "\n"
  else if (n =? 12)%nat then "\f"
  else if (n =? 13)%nat then "\r"
  else if (n =? 34)%nat then "\" ++ dquote
  else if (n =? 92)%nat then "\\"
  else if (n <? 32)%nat then
    "\u00" ++ String (hex_digit (n / 16)) (String (hex_digit (n mod 16)) "")
  else String c "".

Fixpoint quote_chars (s : string) : string :=
  match s with
  | EmptyString => ""
  | String c rest => quote_char c ++ quote_chars rest
  end.

(** [QuoteJSONString]. *)
Definition quote (s : string) : string := dquote ++ quote_chars s ++ dquote.

(** [JSON.stringify(v)] without indentation, on a value other than
    [undefined].  In an array [undefined] is written [null]; in an object
    a property whose value is [undefined] is left out. *)
Fixpoint stringify (v : JsVal) : string :=
  match v with
  | JUndefined => "undefined"
  | JNull => "null"
  | JBool true => "true"
  | JBool false => "false"
  | JNum n => number_to_string n
  | JStr s => quote s
  | JArr items =>
      "[" ++
      (fix elements (l : list JsVal) : string :=
         match l with
         | [] => ""
         | x :: rest =>
             let piece :=
               match x with
               | JUndefined => "null"
               | _ => stringify x
               end in
             match rest with
             | [] => piece
             | _ :: _ => piece ++ "," ++ elements rest
             end
         end) items
      ++ "]"
  | JObj props =>
      "{" ++
      (fix members (first : bool) (l : list (string * JsVal)) : string :=
         match l with
         | [] => ""
         | (k, x) :: rest =>
             match x with
             | JUndefined => members first rest
             | _ =>
                 (if first then "" else ",")
                 ++ quote k ++ ":" ++ stringify x ++ members false rest
             end
         end) true props
      ++ "}"
  end.

End Js.

(** ** Data of the tool *)

(** The tool handed to the execution capability. *)
Module Tool.
Record t : Type := make {
  name : string;
  description : string;
  inputSchema : JsVal;
  outputSchema : JsVal;
  execute : string
}.
End Tool.

(** The argument of [DECO_TOOL_RUN_TOOL]. *)
Record RunToolArgs : Type := {
  tool : Tool.t;
  input : JsVal
}.

Record Message : Type := {
  role : string;
  content : string
}.

(** The argument of [AI_GENERATE_OBJECT]. *)
Record GenerateObjectArgs : Type := {
  model : string;
  messages : list Message;
  temperature : QArith_base.Q;
  schema : JsVal
}.

(** What the handler returns, as the [outputSchema] of the tool shapes it.
    An optional field that is not set holds [JUndefined]. *)
Record ToolInvocation : Type := {
  reasoning : string;
  toolUri : string;
  generatedInput : JsVal;
  result : JsVal;
  error : JsVal
}.

(** ** Effects *)

(** How an awaited call or a block ends: with a value, or with something
    thrown (a rejected promise, once awaited, throws its reason). *)
Inductive Completion (A : Type) : Type :=
| Normal (a : A)
| Abrupt (e : Thrown).

Arguments Normal {A} a.
Arguments Abrupt {A} e.

(** The two capabilities of the environment.  The handler calls each at
    most once, so a function of the argument says all that a capability
    can do to it. *)
Record Env : Type := {
  AI_GENERATE_OBJECT : GenerateObjectArgs -> Completion JsVal;
  DECO_TOOL_RUN_TOOL : RunToolArgs -> Completion JsVal
}.

(** A computation threads the calls that the execution capability has
    received so far, oldest first, and ends normally or abruptly. *)
Definition Eff (A : Type) : Type :=
  list RunToolArgs -> list RunToolArgs * Completion A.

Definition ret {A : Type} (a : A) : Eff A :=
  fun calls => (calls, Normal a).

Definition throw {A : Type} (e : Thrown) : Eff A :=
  fun calls => (calls, Abrupt e).

Definition bind {A B : Type} (m : Eff A) (k : A -> Eff B) : Eff B :=
  fun calls =>
    match m calls with
    | (calls', Normal a) => k a calls'
    | (calls', Abrupt e) => (calls', Abrupt e)
    end.

(** [try { m } catch (e) { handler e }]. *)
Definition try_catch {A : Type} (m : Eff A) (handler : Thrown -> Eff A) : Eff A :=
  fun calls =>
    match m calls with
    | (calls', Normal a) => (calls', Normal a)
    | (calls', Abrupt e) => handler e calls'
    end.

Declare Scope eff_scope.
Delimit Scope eff_scope with eff.
Notation "x <- m ;; k" := (bind m (fun x => k))
  (at level 61, m at next level, right associativity) : eff_scope.
Local Open Scope eff_scope.

(** [await env.AI_GATEWAY.AI_GENERATE_OBJECT(args)]. *)
Definition await_generate_object (env : Env) (args : GenerateObjectArgs) : Eff JsVal :=
  fun calls => (calls, AI_GENERATE_OBJECT env args).

(** [await env.TOOLS.DECO_TOOL_RUN_TOOL(args)]: the call is received, then
    its completion comes back. *)
Definition await_run_tool (env : Env) (args : RunToolArgs) : Eff JsVal :=
  fun calls => ((calls ++ [args])%list, DECO_TOOL_RUN_TOOL env args).

(** The message of the [TypeError] of the Workers runtime (V8) for reading
    a property of [undefined] or [null]. *)
Definition cannot_read (v : JsVal) (key : string) : string :=
  "Cannot read properties of " ++ Js.ToString v ++ " (reading '" ++ key ++ "')".

(** [v.key], which throws on [undefined] and [null]. *)
Definition member (v : JsVal) (key : string) : Eff JsVal :=
  match v with
  | JUndefined | JNull => throw (ErrorInstance (cannot_read v key))
  | _ => ret (Js.Get v key)
  end.

(** The calls received and the completion of a computation started with no
    call received yet. *)
Definition run {A : Type} (m : Eff A) : list RunToolArgs * Completion A :=
  m [].

(** ** The handler *)

(** A string property of a JSON schema. *)
Definition schema_property (type description : string) : JsVal :=
  JObj [("type", JStr type); ("description", JStr description)].

Definition AI_TOOL_GENERATION_SCHEMA : JsVal :=
  JObj [
    ("type", JStr "object");
    ("properties", JObj [
      ("toolName",
        schema_property "string" "A descriptive name for the generated tool");
      ("toolDescription",
        schema_property "string" "Description of what the tool does");
      ("inputSchema",
        schema_property "object" "JSON schema for the tool input");
      ("outputSchema",
        schema_property "object" "JSON schema for the tool output");
      ("executeCode",
        schema_property "string" "ES module code with default export function. MUST be in format: 'export default async function (input, ctx) { /* code */ }'. The function receives (input, ctx) where ctx.env.SELF provides access to tools.");
      ("input", JObj [
        ("type", JStr "object");
        ("description", JStr "The input parameters to pass to the tool");
        ("additionalProperties", JBool true)]);
      ("reasoning",
        schema_property "string" "Brief explanation of what you're doing and why")]);
    ("required", JArr [
      JStr "toolName"; JStr "toolDescription"; JStr "inputSchema";
      JStr "outputSchema"; JStr "executeCode"; JStr "input"; JStr "reasoning"])
  ].

(** The entry point that the prompt and the format failure ask for. *)
Definition REQUIRED_PREFIX : string :=
  "export default async function (input, ctx) {".

(** The text that the format check looks for. *)
Definition FORMAT_MARKER : string := "export default async function".

Definition MISSING_CODE_MESSAGE : string := "Failed to generate tool code".

Definition FORMAT_MESSAGE : string :=
  "Generated code is not in the correct ES module format. Code must start with 'export default async function (input, ctx) {'".

Definition UNKNOWN_ERROR_MESSAGE : string := "Unknown error occurred".

(** The template literal [aiPrompt], line by line. *)
Definition aiPrompt (query : string) : string :=
  String.concat newline [
    "You are a tool code generator. Based on the user's request, generate JavaScript code that will accomplish the task.";
    "";
    "User request: " ++ dquote ++ query ++ dquote;
    "";
    "You have access to these tools via ctx.env.SELF:";
    "- ctx.env.SELF.LIST_TODOS({}) - List all todos";
    "- ctx.env.SELF.GENERATE_TODO_WITH_AI({ prompt?: string }) - Generate a todo with AI";
    "- ctx.env.SELF.TOGGLE_TODO({ id: number }) - Toggle a todo's completion";
    "- ctx.env.SELF.DELETE_TODO({ id: number }) - Delete a todo";
    "";
    "Generate a tool that:";
    "1. Has a descriptive name and description";
    "2. Defines appropriate input/output JSON schemas";
    "3. Contains an ES module with a default export function";
    "";
    "The executeCode MUST follow this exact format:";
    "```javascript";
    "export default async function (input, ctx) {";
    "  // Your code here";
    "  const result = await ctx.env.SELF.LIST_TODOS({});";
    "  return { todos: result.todos };";
    "}";
    "```";
    "";
    "CRITICAL Requirements for executeCode:";
    "- MUST start with " ++ dquote ++ "export default async function (input, ctx) {" ++ dquote;
    "- MUST end with " ++ dquote ++ "}" ++ dquote;
    "- The 'input' parameter contains the input data based on inputSchema";
    "- The 'ctx.env.SELF' object provides access to our tools";
    "- Use async/await for all tool calls";
    "- Return a JSON object matching the outputSchema";
    "- Handle errors gracefully with try/catch if needed";
    "";
    "Example for listing todos:";
    "```javascript";
    "export default async function (input, ctx) {";
    "  const result = await ctx.env.SELF.LIST_TODOS({});";
    "  return { todos: result.todos };";
    "}";
    "```";
    "";
    "Example for creating a todo:";
    "```javascript";
    "export default async function (input, ctx) {";
    "  const result = await ctx.env.SELF.GENERATE_TODO_WITH_AI({ prompt: input.prompt });";
    "  return { todo: result.todo };";
    "}";
    "```";
    "";
    "Return a JSON with: toolName, toolDescription, inputSchema, outputSchema, executeCode (as a complete ES module string), input (the data to pass when executing), and reasoning."
  ].

(** What the prompt says before it comes to the query. *)
Definition aiPrompt_intro : string :=
  "You are a tool code generator. Based on the user's request, generate JavaScript code that will accomplish the task."
  ++ newline ++ "" ++ newline.

(** The argument of the generation call for a query. *)
Definition generation_args (query : string) : GenerateObjectArgs := {|
  model := "openai:gpt-4.1-mini";
  messages := [
    {| role := "system";
       content := "You are a helpful assistant that generates executable JavaScript code for tools. Always provide valid, executable code." |};
    {| role := "user"; content := aiPrompt query |}];
  temperature := QArith_base.Qmake 3 10;
  schema := AI_TOOL_GENERATION_SCHEMA
|}.

(** [`DYNAMIC::${toolName}`]. *)
Definition dynamic_uri (toolName : string) : string := "DYNAMIC::" ++ toolName.

(** [error instanceof Error ? error.message : "Unknown error occurred"]. *)
Definition caught_message (e : Thrown) : string :=
  match e with
  | ErrorInstance message => message
  | ThrownValue _ => UNKNOWN_ERROR_MESSAGE
  end.

(** The handler from the reply object on: everything after the generation
    call, with [object] the value of [aiResponse.object]. *)
Definition execute_reply (env : Env) (object : JsVal) : Eff ToolInvocation :=
  let toolName := Js.ToString (Js.OptGet object "toolName") in
  let toolDescription := Js.ToString (Js.OptGet object "toolDescription") in
  let inputSchema := Js.or (Js.OptGet object "inputSchema") empty_object in
  let outputSchema := Js.or (Js.OptGet object "outputSchema") empty_object in
  let executeCode := Js.ToString (Js.OptGet object "executeCode") in
  let generatedInput := Js.or (Js.OptGet object "input") empty_object in
  let reasoning := Js.ToString (Js.OptGet object "reasoning") in
  if (executeCode =? "") || (toolName =? "") then
    throw (ErrorInstance MISSING_CODE_MESSAGE)
  else if negb (Js.includes executeCode FORMAT_MARKER) then
    throw (ErrorInstance FORMAT_MESSAGE)
  else
    try_catch
      (toolResult <- await_run_tool env {|
           tool := {|
             Tool.name := toolName;
             Tool.description := toolDescription;
             Tool.inputSchema := inputSchema;
             Tool.outputSchema := outputSchema;
             Tool.execute := executeCode |};
           input := generatedInput |} ;;
       toolResult_error <- member toolResult "error" ;;
       if Js.ToBoolean toolResult_error then
         ret {| reasoning := reasoning;
                toolUri := dynamic_uri toolName;
                generatedInput := generatedInput;
                result := JUndefined;
                error := JStr (Js.stringify toolResult_error) |}
       else
         toolResult_result <- member toolResult "result" ;;
         ret {| reasoning := reasoning;
                toolUri := dynamic_uri toolName;
                generatedInput := generatedInput;
                result := toolResult_result;
                error := JUndefined |})
      (fun error =>
         ret {| reasoning := reasoning;
                toolUri := dynamic_uri toolName;
                generatedInput := generatedInput;
                result := JUndefined;
                error := JStr (caught_message error) |}).

(** [execute: async ({ context }) => ...] of [AI_TOOL_EXECUTOR], with
    [query] the value of [context.query]. *)
Definition execute (env : Env) (query : string) : Eff ToolInvocation :=
  aiResponse <- await_generate_object env (generation_args query) ;;
  object <- member aiResponse "object" ;;
  execute_reply env object.

(** ** Vocabulary of the statements *)

(** The generation call resolves, and [object] is the [object] field of
    what it resolves with. *)
Definition generation_reply (env : Env) (query : string) (object : JsVal) : Prop :=
  exists aiResponse,
    AI_GENERATE_OBJECT env (generation_args query) = Normal aiResponse
    /\ aiResponse <> JUndefined /\ aiResponse <> JNull
    /\ Js.Get aiResponse "object" = object.

(** The constants [toolName] and [executeCode] of the handler. *)
Definition toolName_of (object : JsVal) : string :=
  Js.ToString (Js.OptGet object "toolName").

Definition executeCode_of (object : JsVal) : string :=
  Js.ToString (Js.OptGet object "executeCode").

(** Both guards of the handler let the reply through. *)
Definition accepted (object : JsVal) : bool :=
  negb ((executeCode_of object =? "") || (toolName_of object =? ""))
  && Js.includes (executeCode_of object) FORMAT_MARKER.

(** The argument that the handler builds for the execution capability. *)
Definition submitted (object : JsVal) : RunToolArgs := {|
  tool := {|
    Tool.name := toolName_of object;
    Tool.description := Js.ToString (Js.OptGet object "toolDescription");
    Tool.inputSchema := Js.or (Js.OptGet object "inputSchema") empty_object;
    Tool.outputSchema := Js.or (Js.OptGet object "outputSchema") empty_object;
    Tool.execute := executeCode_of object |};
  input := Js.or (Js.OptGet object "input") empty_object
|}.

(** The record of a run, but for its two outcome fields. *)
Definition envelope (object : JsVal) (result error : JsVal) : ToolInvocation := {|
  reasoning := Js.ToString (Js.OptGet object "reasoning");
  toolUri := dynamic_uri (toolName_of object);
  generatedInput := Js.or (Js.OptGet object "input") empty_object;
  result := result;
  error := error
|}.

(** What the handler makes of the completion of the execution call. *)
Definition reconciled (object : JsVal) (outcome : Completion JsVal) : ToolInvocation :=
  match outcome with
  | Abrupt e => envelope object JUndefined (JStr (caught_message e))
  | Normal JUndefined =>
      envelope object JUndefined (JStr (cannot_read JUndefined "error"))
  | Normal JNull =>
      envelope object JUndefined (JStr (cannot_read JNull "error"))
  | Normal toolResult =>
      if Js.ToBoolean (Js.Get toolResult "error")
      then envelope object JUndefined
             (JStr (Js.stringify (Js.Get toolResult "error")))
      else envelope object (Js.Get toolResult "result") JUndefined
  end.

(** [actual] is [given || {}], case by case: [{}] when the field is
    missing or falsy in another way, the field itself when it is truthy. *)
Definition defaulted (given actual : JsVal) : Prop :=
  (given = JUndefined -> actual = JObj [])
  /\ (Js.ToBoolean given = false -> actual = JObj [])
  /\ (Js.ToBoolean given = true -> actual = given).

(** A mocked environment: the generation call resolves with a response
    whose [object] is the given reply, the execution call completes as
    given. *)
Definition mock_env (reply : JsVal) (outcome : Completion JsVal) : Env := {|
  AI_GENERATE_OBJECT := fun _ => Normal (JObj [("object", reply)]);
  DECO_TOOL_RUN_TOOL := fun _ => outcome
|}.

(** ** Replies and outcomes used as examples *)

Definition scenario_A_code : string :=
  "export default async function (input, ctx) { return {todos:[]} }".

Definition scenario_A_reply : JsVal :=
  JObj [("toolName", JStr "LIST");
        ("executeCode", JStr scenario_A_code);
        ("toolDescription", JStr "d");
        ("inputSchema", JObj []);
        ("outputSchema", JObj []);
        ("input", JObj []);
        ("reasoning", JStr "r")].

Definition scenario_A_outcome : JsVal :=
  JObj [("result", JObj [("todos", JArr [])])].




(** Scenario D, and less: only the code is there. *)
Definition reply_code_only : JsVal :=
  JObj [("executeCode", JStr scenario_A_code)].

(** The name and the code, and nothing else. *)
Definition reply_no_metadata : JsVal :=
  JObj [("toolName", JStr "LIST"); ("executeCode", JStr scenario_A_code)].

Definition reply_text_schemas : JsVal :=
  JObj [("toolName", JStr "LIST");
        ("executeCode", JStr scenario_A_code);
        ("inputSchema", JStr "any text");
        ("outputSchema", JNum 7)].

(** ** The todo tools *)

(** The tools of [server/tools/todos.ts] run statements against a database
    and thread its state; thrown values propagate as in the executor. *)
Definition St (S A : Type) : Type := S -> S * Completion A.

Definition st_ret {S A : Type} (a : A) : St S A :=
  fun s => (s, Normal a).

Definition st_throw {S A : Type} (e : Thrown) : St S A :=
  fun s => (s, Abrupt e).

Definition st_bind {S A B : Type} (m : St S A) (k : A -> St S B) : St S B :=
  fun s =>
    match m s with
    | (s', Normal a) => k a s'
    | (s', Abrupt e) => (s', Abrupt e)
    end.

(** Awaiting a call that does not touch the database. *)
Definition st_await {S A : Type} (c : Completion A) : St S A :=
  fun s => (s, c).

Declare Scope st_scope.
Delimit Scope st_scope with st.
Notation "x <- m ;; k" := (st_bind m (fun x => k))
  (at level 61, m at next level, right associativity) : st_scope.

(** A row of [todosTable].  The declaration of the table is not among the
    sources: a row has the columns that the tools read and write, [title]
    and [completed] being [None] when they hold [null]. *)
Module Row.
Record t : Type := make {
  id : Z;
  title : option string;
  completed : option Z
}.
End Row.

(** A todo as the tools return it. *)
Module Todo.
Record t : Type := make {
  id : Z;
  title : option string;
  completed : bool
}.
End Todo.

Record ListTodosOutput : Type := { todos : list Todo.t }.

Record TodoOutput : Type := { todo : Todo.t }.

Record DeleteTodoOutput : Type := { success : bool; deletedId : Z }.

(** What the tools ask of the database, statement by statement; [getDb]
    builds the handle and runs the migrations.  Each may change the state
    [S] of the database and may throw. *)
Record Database (S : Type) : Type := {
  getDb : St S unit;
  select_from_todos : St S (list Row.t);
  select_where_id_limit_1 : Z -> St S (list Row.t);
  insert_values_returning_id : string -> Z -> St S (list Z);
  update_set_completed_where_id_returning : Z -> Z -> St S (list Row.t);
  delete_where_id : Z -> St S unit
}.

Arguments getDb {S} _.
Arguments select_from_todos {S} _.
Arguments select_where_id_limit_1 {S} _ _.
Arguments insert_values_returning_id {S} _ _ _.
Arguments update_set_completed_where_id_returning {S} _ _ _.
Arguments delete_where_id {S} _ _.

(** [completed === 1] on a column value. *)
Definition is_one (completed : option Z) : bool :=
  match completed with
  | Some c => (c =? 1)%Z
  | None => false
  end.

(** [{ ...todo, completed: todo.completed === 1 }]. *)
Definition listed (row : Row.t) : Todo.t := {|
  Todo.id := Row.id row;
  Todo.title := Row.title row;
  Todo.completed := is_one (Row.completed row)
|}.

(** [execute] of [LIST_TODOS]. *)
Definition LIST_TODOS {S : Type} (db : Database S) : St S ListTodosOutput :=
  (_ <- getDb db ;;
   rows <- select_from_todos db ;;
   st_ret {| todos := map listed rows |})%st.

Definition TODO_GENERATION_SCHEMA : JsVal :=
  JObj [
    ("type", JStr "object");
    ("properties", JObj [
      ("title", schema_property "string" "The title of the todo")]);
    ("required", JArr [JStr "title"])
  ].

Definition DEFAULT_TODO_PROMPT : string :=
  "Generate a funny TODO title that i can add to my TODO list! Keep it short and sweet, a maximum of 10 words.".

(** [context.prompt || "Generate a funny TODO title ..."]. *)
Definition userPrompt (prompt : option string) : string :=
  match prompt with
  | Some text => if text =? "" then DEFAULT_TODO_PROMPT else text
  | None => DEFAULT_TODO_PROMPT
  end.

Definition todo_generation_args (prompt : option string) : GenerateObjectArgs := {|
  model := "openai:gpt-4.1-mini";
  messages := [{| role := "user"; content := userPrompt prompt |}];
  temperature := QArith_base.Qmake 9 10;
  schema := TODO_GENERATION_SCHEMA
|}.

(** [v.key] in a tool, which throws on [undefined] and [null]. *)
Definition st_member {S : Type} (v : JsVal) (key : string) : St S JsVal :=
  match v with
  | JUndefined | JNull => st_throw (ErrorInstance (cannot_read v key))
  | _ => st_ret (Js.Get v key)
  end.

(** [execute] of [GENERATE_TODO_WITH_AI], with [prompt] the value of
    [context.prompt]. *)
Definition GENERATE_TODO_WITH_AI {S : Type}
    (env : Env) (db : Database S) (prompt : option string) : St S TodoOutput :=
  (_ <- getDb db ;;
   generatedTodo <- st_await (AI_GENERATE_OBJECT env (todo_generation_args prompt)) ;;
   object <- st_member generatedTodo "object" ;;
   let generatedTodoTitle := Js.ToString (Js.OptGet object "title") in
   if generatedTodoTitle =? "" then
     st_throw (ErrorInstance "Failed to generate todo")
   else
     inserted <- insert_values_returning_id db generatedTodoTitle 0 ;;
     match inserted with
     | [] => st_throw (ErrorInstance (cannot_read JUndefined "id"))
     | new_id :: _ =>
         st_ret {| todo := {| Todo.id := new_id;
                              Todo.title := Some generatedTodoTitle;
                              Todo.completed := false |} |}
     end)%st.

(** [currentTodo[0].completed === 1 ? 0 : 1]. *)
Definition newCompletedStatus (completed : option Z) : Z :=
  if is_one completed then 0%Z else 1%Z.

(** [execute] of [TOGGLE_TODO], with [id] the value of [context.id]. *)
Definition TOGGLE_TODO {S : Type} (db : Database S) (id : Z) : St S TodoOutput :=
  (_ <- getDb db ;;
   currentTodo <- select_where_id_limit_1 db id ;;
   match currentTodo with
   | [] => st_throw (ErrorInstance "Todo not found")
   | current :: _ =>
       updatedTodo <- update_set_completed_where_id_returning db id
                        (newCompletedStatus (Row.completed current)) ;;
       match updatedTodo with
       | [] => st_throw (ErrorInstance (cannot_read JUndefined "id"))
       | updated :: _ =>
           st_ret {| todo := {| Todo.id := Row.id updated;
                                Todo.title := Row.title updated;
                                Todo.completed := is_one (Row.completed updated) |} |}
       end
   end)%st.

(** [execute] of [DELETE_TODO], with [id] the value of [context.id]. *)
Definition DELETE_TODO {S : Type} (db : Database S) (id : Z) : St S DeleteTodoOutput :=
  (_ <- getDb db ;;
   existingTodo <- select_where_id_limit_1 db id ;;
   match existingTodo with
   | [] => st_throw (ErrorInstance "Todo not found")
   | _ :: _ =>
       _ <- delete_where_id db id ;;
       st_ret {| success := true; deletedId := id |}
   end)%st.

(** ** The cache of the view *)

(** The data cached under the key [["todos"]] by the hooks of
    [view/src/lib]: the output of [LIST_TODOS], or [undefined] ([None])
    as long as the list has not been fetched. *)
Definition TodosCache : Type := option ListTodosOutput.

(** The updater that [useGenerateTodoWithAI] passes to [setQueryData]. *)
Definition useGenerateTodoWithAI_onSuccess
    (data : TodoOutput) (old : TodosCache) : TodosCache :=
  match old with
  | None => None
  | Some cached => Some {| todos := todos cached ++ [todo data] |}
  end.

(** The updater of [useToggleTodo]. *)
Definition useToggleTodo_onSuccess
    (data : TodoOutput) (old : TodosCache) : TodosCache :=
  match old with
  | None => None
  | Some cached =>
      Some {| todos :=
                map (fun item =>
                       if (Todo.id item =? Todo.id (todo data))%Z
                       then todo data else item)
                    (todos cached) |}
  end.

(** The updater of [useDeleteTodo]. *)
Definition useDeleteTodo_onSuccess
    (data : DeleteTodoOutput) (old : TodosCache) : TodosCache :=
  match old with
  | None => None
  | Some cached =>
      Some {| todos :=
                filter (fun item => negb (Todo.id item =? deletedId data)%Z)
                       (todos cached) |}
  end.

(** ** A table in memory *)

(** [completed] set to a value. *)
Definition with_completed (status : Z) (row : Row.t) : Row.t := {|
  Row.id := Row.id row;
  Row.title := Row.title row;
  Row.completed := Some status
|}.

(** A database whose state is the list of the rows of the table, oldest
    first, with the meaning that the statements have in SQL; [fresh] picks
    the identifier of an inserted row.  No statement fails. *)
Definition memory_db (fresh : list Row.t -> Z) : Database (list Row.t) := {|
  getDb := st_ret tt;
  select_from_todos := fun rows => (rows, Normal rows);
  select_where_id_limit_1 := fun id rows =>
    (rows, Normal (firstn 1 (filter (fun row => (Row.id row =? id)%Z) rows)));
  insert_values_returning_id := fun title status rows =>
    ((rows ++ [{| Row.id := fresh rows;
                  Row.title := Some title;
                  Row.completed := Some status |}])%list,
     Normal [fresh rows]);
  update_set_completed_where_id_returning := fun id status rows =>
    let updated :=
      map (fun row => if (Row.id row =? id)%Z then with_completed status row else row)
          rows in
    (updated, Normal (filter (fun row => (Row.id row =? id)%Z) updated));
  delete_where_id := fun id rows =>
    (filter (fun row => negb (Row.id row =? id)%Z) rows, Normal tt)
|}.

(** A lone row and a table, as examples. *)
Definition row_milk : Row.t :=
  {| Row.id := 1; Row.title := Some "milk"; Row.completed := Some 0%Z |}.

Definition row_rent : Row.t :=
  {| Row.id := 2; Row.title := None; Row.completed := Some 1%Z |}.

Definition two_rows : list Row.t := [row_milk; row_rent].

(** ** Strings *)





(** ** The runs of the handler *)

(** From the reply on, guard by guard. *)
Lemma run_missing (env : Env) (object : JsVal) :
  (executeCode_of object =? "") || (toolName_of object =? "") = true ->
  run (execute_reply env object) = ([], Abrupt (ErrorInstance MISSING_CODE_MESSAGE)).
Proof.
  unfold executeCode_of, toolName_of, run, execute_reply.
  intros ->; reflexivity.
Qed.

Lemma run_bad_format (env : Env) (object : JsVal) :
  (executeCode_of object =? "") || (toolName_of object =? "") = false ->
  Js.includes (executeCode_of object) FORMAT_MARKER = false ->
  run (execute_reply env object) = ([], Abrupt (ErrorInstance FORMAT_MESSAGE)).
Proof.
  unfold executeCode_of, toolName_of, run, execute_reply.
  intros -> ->; reflexivity.
Qed.

Lemma run_accepted (env : Env) (object : JsVal) :
  accepted object = true ->
  run (execute_reply env object)
  = ([submitted object],
     Normal (reconciled object (DECO_TOOL_RUN_TOOL env (submitted object)))).
Proof.
  unfold accepted; rewrite andb_true_iff, negb_true_iff.
  unfold executeCode_of, toolName_of, run, execute_reply.
  intros [-> ->]; simpl negb; cbv iota.
  unfold try_catch, bind, await_run_tool.
  fold (toolName_of object) (executeCode_of object).
  change {| tool := _; input := _ |} with (submitted object).
  destruct (DECO_TOOL_RUN_TOOL env (submitted object)) as [toolResult|e];
    [|reflexivity].
  destruct toolResult; try reflexivity;
    simpl; unfold bind, ret; simpl;
    match goal with
    | |- context [if ?b then _ else _] => destruct b; reflexivity
    | |- _ => reflexivity
    end.
Qed.

Lemma run_rejected (env : Env) (object : JsVal) :
  accepted object = false ->
  run (execute_reply env object) = ([], Abrupt (ErrorInstance MISSING_CODE_MESSAGE))
  \/ run (execute_reply env object) = ([], Abrupt (ErrorInstance FORMAT_MESSAGE)).
Proof.
  unfold accepted; intros H.
  destruct ((executeCode_of object =? "") || (toolName_of object =? "")) eqn:E.
  - left; apply run_missing; assumption.
  - right; apply run_bad_format; [assumption|].
    simpl in H; assumption.
Qed.

(** The whole handler, once the generation call has resolved. *)
Section AfterGeneration.

Variables (env : Env) (query : string) (object : JsVal).
Hypothesis replied : generation_reply env query object.

Lemma execute_after_generation :
  run (execute env query) = run (execute_reply env object).
Proof.
  destruct replied as (aiResponse & Hgen & Hu & Hn & Hobj).
  unfold run, execute, bind, await_generate_object.
  rewrite Hgen.
  destruct aiResponse; try congruence; simpl in *; rewrite Hobj; reflexivity.
Qed.

Lemma execute_accepted :
  accepted object = true ->
  run (execute env query)
  = ([submitted object],
     Normal (reconciled object (DECO_TOOL_RUN_TOOL env (submitted object)))).
Proof.
  rewrite execute_after_generation; apply run_accepted.
Qed.

Lemma execute_rejected :
  accepted object = false ->
  run (execute env query) = ([], Abrupt (ErrorInstance MISSING_CODE_MESSAGE))
  \/ run (execute env query) = ([], Abrupt (ErrorInstance FORMAT_MESSAGE)).
Proof.
  rewrite execute_after_generation; apply run_rejected.
Qed.

(** A run that returns a record is the run of an accepted reply. *)
Lemma execute_returns (calls : list RunToolArgs) (r : ToolInvocation) :
  run (execute env query) = (calls, Normal r) ->
  accepted object = true
  /\ calls = [submitted object]
  /\ r = reconciled object (DECO_TOOL_RUN_TOOL env (submitted object)).
Proof.
  intros Hrun.
  destruct (accepted object) eqn:Hacc.
  - rewrite (execute_accepted Hacc) in Hrun.
    injection Hrun as <- <-; auto.
  - destruct (execute_rejected Hacc) as [E|E];
      rewrite E in Hrun; discriminate Hrun.
Qed.

End AfterGeneration.

(** From [Hgen], a reply, and [Hrun], a run that returned a record: the
    calls and the record of that run. *)
Ltac returned Hgen Hrun :=
  let Hacc := fresh "Hacc" in
  destruct (execute_returns _ _ _ Hgen _ _ Hrun) as (Hacc & -> & ->).

Lemma mock_env_reply (reply : JsVal) (outcome : Completion JsVal) (query : string) :
  generation_reply (mock_env reply outcome) query reply.
Proof.
  exists (JObj [("object", reply)]); repeat split; discriminate.
Qed.

Lemma or_defaulted (given : JsVal) :
  defaulted given (Js.or given empty_object).
Proof.
  unfold defaulted, Js.or; repeat split; intros ->; reflexivity.
Qed.

(** The fields of a reconciled record that do not depend on the outcome. *)
Lemma reconciled_fixed_fields (object : JsVal) (outcome : Completion JsVal) :
  reasoning (reconciled object outcome) = Js.ToString (Js.OptGet object "reasoning")
  /\ toolUri (reconciled object outcome) = dynamic_uri (toolName_of object)
  /\ generatedInput (reconciled object outcome)
     = Js.or (Js.OptGet object "input") empty_object.
Proof.
  destruct outcome as [[| |b|n|s|items|props]|e]; simpl;
    try (destruct (Js.ToBoolean _)); repeat split; reflexivity.
Qed.

(** A reconciled record never carries both a result and an error. *)
Lemma reconciled_exclusive (object : JsVal) (outcome : Completion JsVal) :
  result (reconciled object outcome) = JUndefined
  \/ error (reconciled object outcome) = JUndefined.
Proof.
  destruct outcome as [[| |b|n|s|items|props]|e]; simpl;
    try (destruct (Js.ToBoolean _)); simpl; auto.
Qed.

Lemma reconciled_success (object toolResult : JsVal) :
  toolResult <> JUndefined -> toolResult <> JNull ->
  Js.ToBoolean (Js.Get toolResult "error") = false ->
  reconciled object (Normal toolResult)
  = envelope object (Js.Get toolResult "result") JUndefined.
Proof.
  intros Hu Hn Hfalsy.
  destruct toolResult; try congruence; unfold reconciled;
    rewrite Hfalsy; reflexivity.
Qed.

Create HintDb handler.
#[local] Hint Resolve mock_env_reply or_defaulted reconciled_exclusive : handler.

(** ** The two guards *)




(** C2, at the failing input: a reply that has the code and no [toolName]
    at all.  The coerced name is the text [undefined], the guard lets it
    through, and the execution capability is called with a tool of that
    name. *)
Theorem absent_toolName_is_executed :
  Js.OptGet reply_code_only "toolName" = JUndefined
  /\ run (execute (mock_env reply_code_only (Normal scenario_A_outcome)) "list todos")
     = ([{| tool := {| Tool.name := "undefined";
                       Tool.description := "undefined";
                       Tool.inputSchema := JObj [];
                       Tool.outputSchema := JObj [];
                       Tool.execute := scenario_A_code |};
            input := JObj [] |}],
        Normal {| reasoning := "undefined";
                  toolUri := "DYNAMIC::undefined";
                  generatedInput := JObj [];
                  result := JObj [("todos", JArr [])];
                  error := JUndefined |}).
Proof. split; vm_compute; reflexivity. Qed.

(** What the first guard does catch: a [toolName] or an [executeCode] that
    coerces to the empty text, and, through the second guard, an
    [executeCode] that is absent.  None reaches the execution capability. *)
Lemma empty_fields_abort (env : Env) (query : string) (object : JsVal) :
  generation_reply env query object ->
  (toolName_of object = "" \/ executeCode_of object = ""
   \/ Js.OptGet object "executeCode" = JUndefined) ->
  exists message,
    run (execute env query) = ([], Abrupt (ErrorInstance message))
    /\ (message = MISSING_CODE_MESSAGE \/ message = FORMAT_MESSAGE).
Proof.
  intros Hgen Hcase.
  assert (Hrej : accepted object = false).
  { unfold accepted.
    destruct Hcase as [H|[H|H]].
    - rewrite H, orb_true_r; reflexivity.
    - rewrite H; reflexivity.
    - unfold executeCode_of; rewrite H; simpl.
      destruct (toolName_of object =? ""); reflexivity. }
  destruct (execute_rejected env query object Hgen Hrej) as [H|H];
    rewrite H; eexists; split; eauto.
Qed.

(** ** Failures of the execution *)

(** C3, as amended.  Once both guards have let the reply through, the
    handler returns a record whatever the execution capability does; if the
    capability throws, by itself or through a rejected promise, the record
    has no result and its error is a string, the message of the thrown
    [Error] or the generic one.  What leaves the handler as a failure
    leaves it before any execution call, and is one of four: the failure of
    one of the two guards, the value thrown by a generation call that
    fails, or the [TypeError] of reading [object] on a response that is
    [undefined] or [null]. *)
Theorem execution_failures_are_reported (env : Env) (query : string) :
  (forall object,
     generation_reply env query object ->
     accepted object = true ->
     exists r,
       run (execute env query) = ([submitted object], Normal r)
       /\ forall e,
            DECO_TOOL_RUN_TOOL env (submitted object) = Abrupt e ->
            result r = JUndefined
            /\ error r = JStr (caught_message e))
  /\ (forall calls e,
        run (execute env query) = (calls, Abrupt e) ->
        calls = []
        /\ ((exists object,
               generation_reply env query object
               /\ accepted object = false
               /\ (e = ErrorInstance MISSING_CODE_MESSAGE
                   \/ e = ErrorInstance FORMAT_MESSAGE))
            \/ AI_GENERATE_OBJECT env (generation_args query) = Abrupt e
            \/ (exists aiResponse,
                  AI_GENERATE_OBJECT env (generation_args query) = Normal aiResponse
                  /\ (aiResponse = JUndefined \/ aiResponse = JNull)
                  /\ e = ErrorInstance (cannot_read aiResponse "object")))).
Proof.
  split.
  - intros object Hgen Hacc; eexists; split.
    + apply execute_accepted; assumption.
    + intros e He; rewrite He; split; reflexivity.
  - intros calls e Hrun.
    destruct (AI_GENERATE_OBJECT env (generation_args query))
      as [aiResponse|thrown] eqn:Hcall.
    + assert (Hcases : aiResponse = JUndefined \/ aiResponse = JNull
                       \/ generation_reply env query (Js.Get aiResponse "object")).
      { destruct aiResponse; auto; right; right;
          eexists; (repeat split; [exact Hcall| | ]); discriminate. }
      destruct Hcases as [->|[->|Hgen]].
      * unfold run, execute, bind, await_generate_object in Hrun.
        rewrite Hcall in Hrun; injection Hrun as <- <-.
        split; [reflexivity|]; right; right; eauto.
      * unfold run, execute, bind, await_generate_object in Hrun.
        rewrite Hcall in Hrun; injection Hrun as <- <-.
        split; [reflexivity|]; right; right; eauto.
      * destruct (accepted (Js.Get aiResponse "object")) eqn:Hacc.
        -- rewrite (execute_accepted env query _ Hgen Hacc) in Hrun.
           discriminate Hrun.
        -- destruct (execute_rejected env query _ Hgen Hacc) as [H|H];
             rewrite H in Hrun; injection Hrun as <- <-;
             (split; [reflexivity|]); left; eauto.
    + unfold run, execute, bind, await_generate_object in Hrun.
      rewrite Hcall in Hrun; injection Hrun as <- <-.
      split; [reflexivity|]; right; left; reflexivity.
Qed.

Lemma execution_failures_are_reported_witness :
  exists r,
    run (execute (mock_env scenario_A_reply (Abrupt (ThrownValue (JNum 503))))
           "list todos")
    = ([submitted scenario_A_reply], Normal r)
    /\ forall e,
         DECO_TOOL_RUN_TOOL
           (mock_env scenario_A_reply (Abrupt (ThrownValue (JNum 503))))
           (submitted scenario_A_reply) = Abrupt e ->
         result r = JUndefined /\ error r = JStr (caught_message e).
Proof.
  apply (proj1 (execution_failures_are_reported
                  (mock_env scenario_A_reply (Abrupt (ThrownValue (JNum 503))))
                  "list todos")
           scenario_A_reply).
  - apply mock_env_reply.
  - reflexivity.
Defined.

(** C3, as stated, fails: a value thrown by the generation call, and the
    [TypeError] on a response that is [null], leave the handler though
    neither comes from one of the two guards. *)
Lemma other_failures_counterexample :
  (run (execute {| AI_GENERATE_OBJECT :=
                     fun _ => Abrupt (ThrownValue (JStr "gateway down"));
                   DECO_TOOL_RUN_TOOL := fun _ => Normal scenario_A_outcome |}
          "list todos")
   = ([], Abrupt (ThrownValue (JStr "gateway down")))
   /\ ThrownValue (JStr "gateway down") <> ErrorInstance MISSING_CODE_MESSAGE
   /\ ThrownValue (JStr "gateway down") <> ErrorInstance FORMAT_MESSAGE)
  /\ (run (execute {| AI_GENERATE_OBJECT := fun _ => Normal JNull;
                      DECO_TOOL_RUN_TOOL := fun _ => Normal scenario_A_outcome |}
             "list todos")
      = ([], Abrupt (ErrorInstance "Cannot read properties of null (reading 'object')"))
      /\ ErrorInstance "Cannot read properties of null (reading 'object')"
         <> ErrorInstance MISSING_CODE_MESSAGE
      /\ ErrorInstance "Cannot read properties of null (reading 'object')"
         <> ErrorInstance FORMAT_MESSAGE).
Proof.
  repeat split; try discriminate; vm_compute; reflexivity.
Qed.

(** C4, as amended.  After an accepted reply, if the execution capability
    throws an [Error] whose message is [network down], the handler returns
    a record with that message as error and no result; if it throws the
    bare string [network down], the record carries the generic message
    [Unknown error occurred]. *)
Theorem thrown_network_down (env : Env) (query : string) (object : JsVal) :
  generation_reply env query object ->
  accepted object = true ->
  (DECO_TOOL_RUN_TOOL env (submitted object)
   = Abrupt (ErrorInstance "network down") ->
   exists r,
     run (execute env query) = ([submitted object], Normal r)
     /\ error r = JStr "network down"
     /\ result r = JUndefined)
  /\ (DECO_TOOL_RUN_TOOL env (submitted object)
      = Abrupt (ThrownValue (JStr "network down")) ->
      exists r,
        run (execute env query) = ([submitted object], Normal r)
        /\ error r = JStr "Unknown error occurred"
        /\ result r = JUndefined).
Proof.
  intros Hgen Hacc.
  pose proof (execute_accepted env query object Hgen Hacc) as Hrun.
  split; intros Hthrow; rewrite Hthrow in Hrun;
    eexists; (split; [exact Hrun|split; reflexivity]).
Qed.

Lemma thrown_network_down_witness :
  exists r,
    run (execute (mock_env scenario_A_reply (Abrupt (ErrorInstance "network down")))
           "list todos")
    = ([submitted scenario_A_reply], Normal r)
    /\ error r = JStr "network down"
    /\ result r = JUndefined.
Proof.
  apply (thrown_network_down
           (mock_env scenario_A_reply (Abrupt (ErrorInstance "network down")))
           "list todos" scenario_A_reply).
  - apply mock_env_reply.
  - reflexivity.
  - reflexivity.
Defined.

(** C4, as stated, fails: when the thrown value is the string
    [network down] the error of the record is another text. *)
Lemma thrown_string_counterexample :
  run (execute (mock_env scenario_A_reply (Abrupt (ThrownValue (JStr "network down"))))
         "list todos")
  = ([submitted scenario_A_reply],
     Normal {| reasoning := "r";
               toolUri := "DYNAMIC::LIST";
               generatedInput := JObj [];
               result := JUndefined;
               error := JStr "Unknown error occurred" |})
  /\ JStr "Unknown error occurred" <> JStr "network down".
Proof. split; [vm_compute; reflexivity | discriminate]. Qed.

(** ** The record *)

(** C5.  A record returned by the handler never has both a result and an
    error; its reasoning and its tool URI are the coerced reasoning of the
    reply and [DYNAMIC::] followed by the coerced tool name.  An accepted
    reply yields a record whatever the execution does, after exactly one
    execution call; a reply stopped by a guard yields a failure and no
    record, after no execution call. *)
Theorem record_invariants (env : Env) (query : string) (object : JsVal) :
  generation_reply env query object ->
  (forall calls r,
     run (execute env query) = (calls, Normal r) ->
     (result r = JUndefined \/ error r = JUndefined)
     /\ reasoning r = Js.ToString (Js.OptGet object "reasoning")
     /\ toolUri r = dynamic_uri (toolName_of object))
  /\ (accepted object = true ->
      exists r, run (execute env query) = ([submitted object], Normal r))
  /\ (accepted object = false ->
      exists message,
        run (execute env query) = ([], Abrupt (ErrorInstance message))).
Proof.
  intros Hgen; split; [|split].
  - intros calls r Hrun; returned Hgen Hrun.
    split; [auto with handler|].
    split; apply reconciled_fixed_fields.
  - intros Hacc; eexists; apply execute_accepted; assumption.
  - intros Hrej.
    destruct (execute_rejected env query object Hgen Hrej) as [E|E];
      rewrite E; eexists; reflexivity.
Qed.

Lemma record_invariants_witness :
  let r := {| reasoning := "r";
              toolUri := "DYNAMIC::LIST";
              generatedInput := JObj [];
              result := JUndefined;
              error := JStr (dquote ++ "boom" ++ dquote) |} in
  (result r = JUndefined \/ error r = JUndefined)
  /\ reasoning r = Js.ToString (Js.OptGet scenario_A_reply "reasoning")
  /\ toolUri r = dynamic_uri (toolName_of scenario_A_reply).
Proof.
  apply (proj1 (record_invariants
                  (mock_env scenario_A_reply
                     (Normal (JObj [("error", JStr "boom")])))
                  "list todos" scenario_A_reply
                  (mock_env_reply _ _ _))
           [submitted scenario_A_reply]).
  vm_compute; reflexivity.
Defined.

(** C7.  Scenario A gives exactly the record of the specification, and the
    tool URI of any record is [DYNAMIC::] followed by the coerced tool
    name. *)
Theorem scenario_A_and_toolUri :
  run (execute (mock_env scenario_A_reply (Normal scenario_A_outcome)) "list todos")
  = ([{| tool := {| Tool.name := "LIST";
                    Tool.description := "d";
                    Tool.inputSchema := JObj [];
                    Tool.outputSchema := JObj [];
                    Tool.execute := scenario_A_code |};
         input := JObj [] |}],
     Normal {| reasoning := "r";
               toolUri := "DYNAMIC::LIST";
               generatedInput := JObj [];
               result := JObj [("todos", JArr [])];
               error := JUndefined |})
  /\ forall env query object calls r,
       generation_reply env query object ->
       run (execute env query) = (calls, Normal r) ->
       toolUri r = "DYNAMIC::" ++ Js.ToString (Js.OptGet object "toolName").
Proof.
  split; [vm_compute; reflexivity|].
  intros env query object calls r Hgen Hrun; returned Hgen Hrun.
  apply reconciled_fixed_fields.
Qed.

Lemma scenario_A_and_toolUri_witness :
  toolUri {| reasoning := "undefined";
             toolUri := "DYNAMIC::undefined";
             generatedInput := JObj [];
             result := JUndefined;
             error := JStr "Unknown error occurred" |}
  = "DYNAMIC::" ++ Js.ToString (Js.OptGet reply_code_only "toolName").
Proof.
  apply (proj2 scenario_A_and_toolUri
           (mock_env reply_code_only (Abrupt (ThrownValue JNull)))
           "list todos" reply_code_only
           [submitted reply_code_only]).
  - apply mock_env_reply.
  - vm_compute; reflexivity.
Defined.

(** ** What reaches the execution capability *)

(** C6, as amended.  For an accepted reply the operation goes on to the
    execution call whatever the two schema fields hold.  A schema that is
    missing, or falsy in another way, is replaced by [{}]; a truthy one is
    passed on as it is, object or not. *)
Theorem schemas_default (env : Env) (query : string) (object : JsVal) :
  generation_reply env query object ->
  accepted object = true ->
  exists args r,
    run (execute env query) = ([args], Normal r)
    /\ defaulted (Js.OptGet object "inputSchema") (Tool.inputSchema (tool args))
    /\ defaulted (Js.OptGet object "outputSchema") (Tool.outputSchema (tool args)).
Proof.
  intros Hgen Hacc.
  exists (submitted object); eexists; split.
  - apply execute_accepted; assumption.
  - split; apply or_defaulted.
Qed.

Lemma schemas_default_witness :
  exists args r,
    run (execute (mock_env reply_no_metadata (Normal scenario_A_outcome)) "list todos")
    = ([args], Normal r)
    /\ defaulted (Js.OptGet reply_no_metadata "inputSchema")
         (Tool.inputSchema (tool args))
    /\ defaulted (Js.OptGet reply_no_metadata "outputSchema")
         (Tool.outputSchema (tool args)).
Proof.
  apply (schemas_default
           (mock_env reply_no_metadata (Normal scenario_A_outcome))
           "list todos" reply_no_metadata).
  - apply mock_env_reply.
  - reflexivity.
Defined.

(** C6, as stated, fails: schemas that are a text and a number, neither of
    them an object, reach the execution capability as they are. *)
Lemma text_schema_counterexample :
  Js.OptGet reply_text_schemas "inputSchema" = JStr "any text"
  /\ Js.OptGet reply_text_schemas "outputSchema" = JNum 7
  /\ fst (run (execute (mock_env reply_text_schemas (Normal scenario_A_outcome))
                 "list todos"))
     = [{| tool := {| Tool.name := "LIST";
                      Tool.description := "undefined";
                      Tool.inputSchema := JStr "any text";
                      Tool.outputSchema := JNum 7;
                      Tool.execute := scenario_A_code |};
           input := JObj [] |}]
  /\ JStr "any text" <> JObj []
  /\ JNum 7 <> JObj [].
Proof. repeat split; try discriminate; vm_compute; reflexivity. Qed.



(** C9, as amended.  For an accepted reply the input handed to the
    execution capability, which is also the [generatedInput] of the record,
    is [{}] when the field is missing or falsy and the field itself
    otherwise, whatever the input schema says; the reasoning of the record
    and the description of the tool are the [String(...)] of their fields,
    so that a missing field gives the text [undefined]. *)
Theorem metadata_coercion (env : Env) (query : string) (object : JsVal) :
  generation_reply env query object ->
  accepted object = true ->
  exists args r,
    run (execute env query) = ([args], Normal r)
    /\ defaulted (Js.OptGet object "input") (input args)
    /\ generatedInput r = input args
    /\ reasoning r = Js.ToString (Js.OptGet object "reasoning")
    /\ Tool.description (tool args)
       = Js.ToString (Js.OptGet object "toolDescription")
    /\ (Js.OptGet object "reasoning" = JUndefined -> reasoning r = "undefined")
    /\ (Js.OptGet object "toolDescription" = JUndefined ->
        Tool.description (tool args) = "undefined").
Proof.
  intros Hgen Hacc.
  exists (submitted object); eexists; split.
  - apply execute_accepted; assumption.
  - destruct (reconciled_fixed_fields object
                (DECO_TOOL_RUN_TOOL env (submitted object)))
      as (Hreasoning & _ & Hinput).
    rewrite Hreasoning, Hinput.
    split; [apply or_defaulted|].
    repeat split; simpl; intros ->; reflexivity.
Qed.

Lemma metadata_coercion_witness :
  exists args r,
    run (execute (mock_env scenario_A_reply (Normal scenario_A_outcome)) "list todos")
    = ([args], Normal r)
    /\ defaulted (Js.OptGet scenario_A_reply "input") (input args)
    /\ generatedInput r = input args
    /\ reasoning r = Js.ToString (Js.OptGet scenario_A_reply "reasoning")
    /\ Tool.description (tool args)
       = Js.ToString (Js.OptGet scenario_A_reply "toolDescription")
    /\ (Js.OptGet scenario_A_reply "reasoning" = JUndefined ->
        reasoning r = "undefined")
    /\ (Js.OptGet scenario_A_reply "toolDescription" = JUndefined ->
        Tool.description (tool args) = "undefined").
Proof.
  apply (metadata_coercion
           (mock_env scenario_A_reply (Normal scenario_A_outcome))
           "list todos" scenario_A_reply).
  - apply mock_env_reply.
  - reflexivity.
Defined.

(** C9, as stated, fails: with [reasoning] and [toolDescription] missing
    from the reply, the reasoning of the record and the description of the
    tool are the text [undefined], not the empty text. *)
Lemma missing_metadata_counterexample :
  Js.OptGet reply_no_metadata "reasoning" = JUndefined
  /\ Js.OptGet reply_no_metadata "toolDescription" = JUndefined
  /\ run (execute (mock_env reply_no_metadata (Normal scenario_A_outcome)) "list todos")
     = ([{| tool := {| Tool.name := "LIST";
                       Tool.description := "undefined";
                       Tool.inputSchema := JObj [];
                       Tool.outputSchema := JObj [];
                       Tool.execute := scenario_A_code |};
            input := JObj [] |}],
        Normal {| reasoning := "undefined";
                  toolUri := "DYNAMIC::LIST";
                  generatedInput := JObj [];
                  result := JObj [("todos", JArr [])];
                  error := JUndefined |})
  /\ "undefined" <> "".
Proof. repeat split; try discriminate; vm_compute; reflexivity. Qed.

(** ** Reported errors *)

(** C10.  After an accepted reply, when the execution capability resolves
    with an outcome whose [error] is falsy, the record has no error and its
    result is the [result] of the outcome as it is. *)
Theorem falsy_error_is_success
    (env : Env) (query : string) (object toolResult : JsVal) :
  generation_reply env query object ->
  accepted object = true ->
  DECO_TOOL_RUN_TOOL env (submitted object) = Normal toolResult ->
  toolResult <> JUndefined ->
  toolResult <> JNull ->
  Js.ToBoolean (Js.Get toolResult "error") = false ->
  exists r,
    run (execute env query) = ([submitted object], Normal r)
    /\ error r = JUndefined
    /\ result r = Js.Get toolResult "result".
Proof.
  intros Hgen Hacc Hout Hu Hn Hfalsy.
  eexists; split.
  - rewrite (execute_accepted env query object Hgen Hacc), Hout.
    rewrite (reconciled_success object toolResult Hu Hn Hfalsy).
    reflexivity.
  - split; reflexivity.
Qed.

Lemma falsy_error_is_success_witness :
  exists r,
    run (execute (mock_env scenario_A_reply
                    (Normal (JObj [("error", JStr ""); ("result", JNum 1)])))
           "list todos")
    = ([submitted scenario_A_reply], Normal r)
    /\ error r = JUndefined
    /\ result r = JNum 1.
Proof.
  apply (falsy_error_is_success
           (mock_env scenario_A_reply
              (Normal (JObj [("error", JStr ""); ("result", JNum 1)])))
           "list todos" scenario_A_reply
           (JObj [("error", JStr ""); ("result", JNum 1)])).
  - apply mock_env_reply.
  - reflexivity.
  - reflexivity.
  - discriminate.
  - discriminate.
  - reflexivity.
Defined.

(** The falsy errors that C10 names, and the outcome with neither field. *)
Lemma falsy_errors :
  Js.ToBoolean JUndefined = false
  /\ Js.ToBoolean JNull = false
  /\ Js.ToBoolean (JStr "") = false
  /\ run (execute (mock_env scenario_A_reply (Normal (JObj []))) "list todos")
     = ([submitted scenario_A_reply],
        Normal {| reasoning := "r";
                  toolUri := "DYNAMIC::LIST";
                  generatedInput := JObj [];
                  result := JUndefined;
                  error := JUndefined |}).
Proof. repeat split; vm_compute; reflexivity. Qed.

(** A reported error is written as JSON, so a text comes back quoted. *)
Lemma reported_error_is_serialised :
  run (execute (mock_env scenario_A_reply
                  (Normal (JObj [("error", JStr "boom"); ("result", JNum 1)])))
         "list todos")
  = ([submitted scenario_A_reply],
     Normal {| reasoning := "r";
               toolUri := "DYNAMIC::LIST";
               generatedInput := JObj [];
               result := JUndefined;
               error := JStr (dquote ++ "boom" ++ dquote) |}).
Proof. vm_compute; reflexivity. Qed.

(** ** More on the executor *)





Lemma number_to_string_nonempty (n : Z) : Js.number_to_string n <> "".
Proof.
  unfold Js.number_to_string.
  destruct (Z.to_int n) as [d|d]; simpl; [|discriminate].
  destruct d; simpl; discriminate.
Qed.

Lemma stringify_nonempty (v : JsVal) : Js.stringify v <> "".
Proof.
  destruct v as [| |[|]|n|s|items|props]; simpl; try discriminate.
  apply number_to_string_nonempty.
Qed.

(** The execution capability receives one call when the handler returns a
    record and none when it throws, whatever the two capabilities do. *)
Theorem at_most_one_execution (env : Env) (query : string) :
  (forall calls r,
     run (execute env query) = (calls, Normal r) -> length calls = 1)
  /\ (forall calls e,
        run (execute env query) = (calls, Abrupt e) -> calls = []).
Proof.
  destruct (AI_GENERATE_OBJECT env (generation_args query))
    as [aiResponse|thrown] eqn:Hgen.
  - assert (Hcases : aiResponse = JUndefined \/ aiResponse = JNull
                     \/ generation_reply env query (Js.Get aiResponse "object")).
    { destruct aiResponse; auto; right; right;
        eexists; (repeat split; [exact Hgen| | ]); discriminate. }
    destruct Hcases as [->|[->|Hreply]].
    + unfold run, execute, bind, await_generate_object; rewrite Hgen; simpl.
      split; intros calls x H; [discriminate H | injection H as <- _; reflexivity].
    + unfold run, execute, bind, await_generate_object; rewrite Hgen; simpl.
      split; intros calls x H; [discriminate H | injection H as <- _; reflexivity].
    + split.
      * intros calls r Hrun; returned Hreply Hrun; reflexivity.
      * intros calls e Hrun.
        destruct (accepted (Js.Get aiResponse "object")) eqn:Hacc.
        -- rewrite (execute_accepted _ _ _ Hreply Hacc) in Hrun; discriminate Hrun.
        -- destruct (execute_rejected _ _ _ Hreply Hacc) as [E|E];
             rewrite E in Hrun; injection Hrun as <- _; reflexivity.
  - unfold run, execute, bind, await_generate_object; rewrite Hgen; simpl.
    split; intros calls x H; [discriminate H | injection H as <- _; reflexivity].
Qed.

(** A failure of the generation call leaves the handler as it is, the
    thrown value unchanged, and nothing is executed. *)
Theorem generation_failure_propagates
    (env : Env) (query : string) (thrown : Thrown) :
  AI_GENERATE_OBJECT env (generation_args query) = Abrupt thrown ->
  run (execute env query) = ([], Abrupt thrown).
Proof.
  intros Hgen.
  unfold run, execute, bind, await_generate_object; rewrite Hgen; reflexivity.
Qed.

Lemma generation_failure_propagates_witness :
  run (execute {| AI_GENERATE_OBJECT := fun _ => Abrupt (ThrownValue (JStr "gateway down"));
                  DECO_TOOL_RUN_TOOL := fun _ => Normal scenario_A_outcome |}
         "list todos")
  = ([], Abrupt (ThrownValue (JStr "gateway down"))).
Proof.
  apply (generation_failure_propagates
           {| AI_GENERATE_OBJECT := fun _ => Abrupt (ThrownValue (JStr "gateway down"));
              DECO_TOOL_RUN_TOOL := fun _ => Normal scenario_A_outcome |}
           "list todos" (ThrownValue (JStr "gateway down"))).
  reflexivity.
Defined.

(** An error reported by the execution capability, that is a truthy
    [error] in the outcome it resolves with, becomes the error of the
    record as JSON text, which is never empty; the [result] of the outcome,
    if there is one, is dropped. *)
Theorem reported_error_is_json
    (env : Env) (query : string) (object toolResult : JsVal) :
  generation_reply env query object ->
  accepted object = true ->
  DECO_TOOL_RUN_TOOL env (submitted object) = Normal toolResult ->
  Js.ToBoolean (Js.Get toolResult "error") = true ->
  exists r,
    run (execute env query) = ([submitted object], Normal r)
    /\ result r = JUndefined
    /\ error r = JStr (Js.stringify (Js.Get toolResult "error"))
    /\ Js.stringify (Js.Get toolResult "error") <> "".
Proof.
  intros Hgen Hacc Hout Htruthy.
  eexists; split.
  - rewrite (execute_accepted env query object Hgen Hacc), Hout; reflexivity.
  - destruct toolResult; try discriminate Htruthy.
    unfold reconciled; rewrite Htruthy.
    repeat split; apply stringify_nonempty.
Qed.

Lemma reported_error_is_json_witness :
  exists r,
    run (execute (mock_env scenario_A_reply
                    (Normal (JObj [("error", JObj [("code", JNum 500)]);
                                   ("result", JNum 1)])))
           "list todos")
    = ([submitted scenario_A_reply], Normal r)
    /\ result r = JUndefined
    /\ error r = JStr (Js.stringify (JObj [("code", JNum 500)]))
    /\ Js.stringify (JObj [("code", JNum 500)]) <> "".
Proof.
  apply (reported_error_is_json
           (mock_env scenario_A_reply
              (Normal (JObj [("error", JObj [("code", JNum 500)]);
                             ("result", JNum 1)])))
           "list todos" scenario_A_reply
           (JObj [("error", JObj [("code", JNum 500)]); ("result", JNum 1)])).
  - apply mock_env_reply.
  - reflexivity.
  - reflexivity.
  - reflexivity.
Defined.

(** When the execution capability resolves with [undefined] or [null],
    reading its [error] throws inside the [try] block: the handler still
    returns a record, with no result and the message of that [TypeError]
    as error. *)
Theorem missing_outcome_is_an_error
    (env : Env) (query : string) (object toolResult : JsVal) :
  generation_reply env query object ->
  accepted object = true ->
  DECO_TOOL_RUN_TOOL env (submitted object) = Normal toolResult ->
  toolResult = JUndefined \/ toolResult = JNull ->
  exists r,
    run (execute env query) = ([submitted object], Normal r)
    /\ result r = JUndefined
    /\ error r = JStr (cannot_read toolResult "error").
Proof.
  intros Hgen Hacc Hout Hnullish.
  eexists; split.
  - rewrite (execute_accepted env query object Hgen Hacc), Hout; reflexivity.
  - destruct Hnullish as [-> | ->]; split; reflexivity.
Qed.

Lemma missing_outcome_is_an_error_witness :
  exists r,
    run (execute (mock_env scenario_A_reply (Normal JUndefined)) "list todos")
    = ([submitted scenario_A_reply], Normal r)
    /\ result r = JUndefined
    /\ error r = JStr "Cannot read properties of undefined (reading 'error')".
Proof.
  apply (missing_outcome_is_an_error
           (mock_env scenario_A_reply (Normal JUndefined))
           "list todos" scenario_A_reply JUndefined).
  - apply mock_env_reply.
  - reflexivity.
  - reflexivity.
  - left; reflexivity.
Defined.



Lemma append_assoc (a b c : string) : (a ++ b) ++ c = a ++ b ++ c.
Proof. induction a as [|x a IH]; simpl; [|rewrite IH]; reflexivity. Qed.

(** The prompt is a fixed text around the query: the query is inserted as
    it is, between double quotes and with no escaping, after
    [User request: ], and the text after it states the required entry
    point. *)
Theorem prompt_embeds_query :
  exists head tail,
    (forall query, aiPrompt query = head ++ query ++ tail)
    /\ (exists intro, head = intro ++ "User request: " ++ dquote)
    /\ prefix dquote tail = true
    /\ Js.includes tail REQUIRED_PREFIX = true.
Proof.
  exists (aiPrompt_intro ++ "User request: " ++ dquote); eexists.
  split; [|split; [|split]].
  - intros query; unfold aiPrompt, aiPrompt_intro; cbn [String.concat].
    rewrite !append_assoc; reflexivity.
  - exists aiPrompt_intro; reflexivity.
  - reflexivity.
  - vm_compute; reflexivity.
Qed.

(** ** The todo tools against any database *)

Section AnyDatabase.

Variable S : Type.
Variable db : Database S.

(** [LIST_TODOS] returns one todo for each row that the database returns,
    in the same order, with the identifier and the title of the row; the
    todo is completed exactly when the column holds 1, so that any other
    value, [null] too, lists as not completed. *)
Theorem list_todos_reports_rows (s s1 s2 : S) (rows : list Row.t) :
  getDb db s = (s1, Normal tt) ->
  select_from_todos db s1 = (s2, Normal rows) ->
  exists out,
    LIST_TODOS db s = (s2, Normal out)
    /\ length (todos out) = length rows
    /\ forall n row,
         nth_error rows n = Some row ->
         exists item,
           nth_error (todos out) n = Some item
           /\ Todo.id item = Row.id row
           /\ Todo.title item = Row.title row
           /\ (Todo.completed item = true <-> Row.completed row = Some 1%Z).
Proof.
  intros Hdb Hselect.
  exists {| todos := map listed rows |}; split; [|split].
  - unfold LIST_TODOS, st_bind; rewrite Hdb, Hselect; reflexivity.
  - apply length_map.
  - intros n row Hrow; exists (listed row); simpl.
    rewrite nth_error_map, Hrow; repeat split.
    + unfold is_one; destruct (Row.completed row) as [c|]; [|discriminate].
      intros Hc; apply Z.eqb_eq in Hc; subst c; reflexivity.
    + intros ->; reflexivity.
Qed.

(** When the database has no row for the identifier, [TOGGLE_TODO] and
    [DELETE_TODO] throw [Todo not found] and leave the database in the
    state that the lookup left it in: no update, no deletion is run. *)
Theorem missing_todo_is_not_written (id : Z) (s s1 s2 : S) :
  getDb db s = (s1, Normal tt) ->
  select_where_id_limit_1 db id s1 = (s2, Normal []) ->
  TOGGLE_TODO db id s = (s2, Abrupt (ErrorInstance "Todo not found"))
  /\ DELETE_TODO db id s = (s2, Abrupt (ErrorInstance "Todo not found")).
Proof.
  intros Hdb Hselect.
  unfold TOGGLE_TODO, DELETE_TODO, st_bind.
  rewrite Hdb, Hselect; split; reflexivity.
Qed.

(** When the lookup finds a row, [TOGGLE_TODO] updates the rows of that
    identifier with 0 if the row found holds 1 and with 1 otherwise, so
    with 1 for a [null] or any other value; it then reports the first row
    that the update returns, and throws if the update returns none or
    fails. *)
Theorem toggle_writes_the_opposite
    (id : Z) (s s1 s2 s3 : S) (current : Row.t) (others : list Row.t)
    (status : Z) (updated : Completion (list Row.t)) :
  getDb db s = (s1, Normal tt) ->
  select_where_id_limit_1 db id s1 = (s2, Normal (current :: others)) ->
  status = (if is_one (Row.completed current) then 0 else 1)%Z ->
  update_set_completed_where_id_returning db id status s2 = (s3, updated) ->
  (status = 0%Z \/ status = 1%Z)
  /\ (status = 0%Z <-> Row.completed current = Some 1%Z)
  /\ TOGGLE_TODO db id s
     = (s3,
        match updated with
        | Normal (first :: _) => Normal {| todo := listed first |}
        | Normal [] =>
            Abrupt (ErrorInstance "Cannot read properties of undefined (reading 'id')")
        | Abrupt e => Abrupt e
        end).
Proof.
  intros Hdb Hselect -> Hupdate; split; [|split].
  - destruct (is_one (Row.completed current)); auto.
  - unfold is_one; destruct (Row.completed current) as [c|].
    + destruct (Z.eqb_spec c 1) as [->|Hc]; split; try reflexivity;
        try discriminate; intros [= ->]; contradiction.
    + split; discriminate.
  - unfold TOGGLE_TODO, st_bind; rewrite Hdb, Hselect.
    unfold newCompletedStatus; rewrite Hupdate.
    destruct updated as [[|first rest]|e]; reflexivity.
Qed.

(** [GENERATE_TODO_WITH_AI] stores the [String(...)] of the title of the
    reply.  Only a title that coerces to the empty text makes it throw
    [Failed to generate todo], before any insertion; a reply with no title
    is stored under the title [undefined].  The todo reported has the
    identifier returned by the insertion and is not completed. *)
Theorem generated_title_is_coerced
    (env : Env) (prompt : option string) (s s1 : S) (generatedTodo : JsVal)
    (generatedTodoTitle : string) :
  getDb db s = (s1, Normal tt) ->
  AI_GENERATE_OBJECT env (todo_generation_args prompt) = Normal generatedTodo ->
  generatedTodo <> JUndefined ->
  generatedTodo <> JNull ->
  generatedTodoTitle
  = Js.ToString (Js.OptGet (Js.Get generatedTodo "object") "title") ->
  (generatedTodoTitle = "" ->
   GENERATE_TODO_WITH_AI env db prompt s
   = (s1, Abrupt (ErrorInstance "Failed to generate todo")))
  /\ (generatedTodoTitle <> "" ->
      forall s2 new_id more,
        insert_values_returning_id db generatedTodoTitle 0 s1
        = (s2, Normal (new_id :: more)) ->
        GENERATE_TODO_WITH_AI env db prompt s
        = (s2, Normal {| todo := {| Todo.id := new_id;
                                    Todo.title := Some generatedTodoTitle;
                                    Todo.completed := false |} |}))
  /\ (Js.OptGet (Js.Get generatedTodo "object") "title" = JUndefined ->
      generatedTodoTitle = "undefined").
Proof.
  intros Hdb Hgen Hu Hn ->.
  assert (Hstart :
    GENERATE_TODO_WITH_AI env db prompt s
    = (let title := Js.ToString (Js.OptGet (Js.Get generatedTodo "object") "title") in
       if title =? "" then st_throw (ErrorInstance "Failed to generate todo")
       else st_bind (insert_values_returning_id db title 0)
              (fun inserted =>
                 match inserted with
                 | [] => st_throw (ErrorInstance (cannot_read JUndefined "id"))
                 | new_id :: _ =>
                     st_ret {| todo := {| Todo.id := new_id;
                                          Todo.title := Some title;
                                          Todo.completed := false |} |}
                 end)) s1).
  { unfold GENERATE_TODO_WITH_AI, st_bind at 1 2 3, st_await.
    rewrite Hdb, Hgen.
    destruct generatedTodo; try congruence; reflexivity. }
  rewrite Hstart; clear Hstart; cbv zeta.
  split; [|split].
  - intros ->; reflexivity.
  - intros Hne s2 new_id more Hinsert.
    apply String.eqb_neq in Hne; rewrite Hne.
    unfold st_bind; rewrite Hinsert; reflexivity.
  - intros ->; reflexivity.
Qed.

End AnyDatabase.

Lemma list_todos_reports_rows_witness :
  exists out,
    LIST_TODOS (memory_db (fun _ => 3%Z)) two_rows = (two_rows, Normal out)
    /\ length (todos out) = length two_rows
    /\ forall n row,
         nth_error two_rows n = Some row ->
         exists item,
           nth_error (todos out) n = Some item
           /\ Todo.id item = Row.id row
           /\ Todo.title item = Row.title row
           /\ (Todo.completed item = true <-> Row.completed row = Some 1%Z).
Proof.
  apply (list_todos_reports_rows (list Row.t) (memory_db (fun _ => 3%Z))
           two_rows two_rows two_rows two_rows); reflexivity.
Defined.

Lemma missing_todo_is_not_written_witness :
  TOGGLE_TODO (memory_db (fun _ => 3%Z)) 7 two_rows
  = (two_rows, Abrupt (ErrorInstance "Todo not found"))
  /\ DELETE_TODO (memory_db (fun _ => 3%Z)) 7 two_rows
     = (two_rows, Abrupt (ErrorInstance "Todo not found")).
Proof.
  apply (missing_todo_is_not_written (list Row.t) (memory_db (fun _ => 3%Z))
           7%Z two_rows two_rows two_rows); reflexivity.
Defined.

Lemma toggle_writes_the_opposite_witness :
  (1 = 0 \/ 1 = 1)%Z
  /\ (1%Z = 0%Z <-> Row.completed row_milk = Some 1%Z)
  /\ TOGGLE_TODO (memory_db (fun _ => 3%Z)) 1 two_rows
     = ([with_completed 1 row_milk; row_rent],
        Normal {| todo := listed (with_completed 1 row_milk) |}).
Proof.
  apply (toggle_writes_the_opposite (list Row.t) (memory_db (fun _ => 3%Z))
           1%Z two_rows two_rows two_rows
           [with_completed 1 row_milk; row_rent]
           row_milk [] 1%Z (Normal [with_completed 1 row_milk]));
    reflexivity.
Defined.

Lemma generated_title_is_coerced_witness :
  GENERATE_TODO_WITH_AI (mock_env (JObj []) (Normal JNull))
    (memory_db (fun _ => 3%Z)) None two_rows
  = ((two_rows ++ [{| Row.id := 3;
                      Row.title := Some "undefined";
                      Row.completed := Some 0%Z |}])%list,
     Normal {| todo := {| Todo.id := 3;
                          Todo.title := Some "undefined";
                          Todo.completed := false |} |}).
Proof.
  destruct (generated_title_is_coerced (list Row.t) (memory_db (fun _ => 3%Z))
              (mock_env (JObj []) (Normal JNull)) None two_rows two_rows
              (JObj [("object", JObj [])]) "undefined")
    as (_ & Hstored & _);
    [reflexivity | reflexivity | discriminate | discriminate | reflexivity |].
  apply Hstored with (more := []); [discriminate | reflexivity].
Defined.

(** ** The todo tools against the table in memory *)

Lemma filter_absent_id (rows : list Row.t) (id : Z) :
  ~ In id (map Row.id rows) ->
  filter (fun row => (Row.id row =? id)%Z) rows = [].
Proof.
  induction rows as [|row rows IH]; simpl; [reflexivity|]; intros Hnot.
  destruct (Z.eqb_spec (Row.id row) id) as [Heq|_]; [tauto|].
  apply IH; tauto.
Qed.

Lemma filter_unique_id (rows : list Row.t) (current : Row.t) :
  NoDup (map Row.id rows) ->
  In current rows ->
  filter (fun row => (Row.id row =? Row.id current)%Z) rows = [current].
Proof.
  induction rows as [|row rows IH]; simpl; [tauto|].
  intros Hnodup Hin; inversion Hnodup as [|x l Hnotin Hrest]; subst.
  destruct Hin as [->|Hin].
  - rewrite Z.eqb_refl, filter_absent_id; [reflexivity | assumption].
  - destruct (Z.eqb_spec (Row.id row) (Row.id current)) as [Heq|_].
    + exfalso; apply Hnotin; rewrite Heq; apply in_map; assumption.
    + apply IH; assumption.
Qed.

Lemma update_keeps_ids (rows : list Row.t) (id status : Z) :
  map Row.id
    (map (fun row => if (Row.id row =? id)%Z then with_completed status row else row)
         rows)
  = map Row.id rows.
Proof.
  rewrite map_map; apply map_ext; intros row.
  destruct (Row.id row =? id)%Z; reflexivity.
Qed.

Lemma filter_updated (rows : list Row.t) (id status : Z) :
  filter (fun row => (Row.id row =? id)%Z)
    (map (fun row => if (Row.id row =? id)%Z then with_completed status row else row)
         rows)
  = map (with_completed status) (filter (fun row => (Row.id row =? id)%Z) rows).
Proof.
  induction rows as [|row rows IH]; simpl; [reflexivity|].
  destruct (Row.id row =? id)%Z eqn:E; simpl; rewrite ?E, IH; reflexivity.
Qed.

Lemma update_restores (rows : list Row.t) (current : Row.t) (first second : Z) :
  NoDup (map Row.id rows) ->
  In current rows ->
  Row.completed current = Some second ->
  map (fun row =>
         if (Row.id row =? Row.id current)%Z then with_completed second row else row)
    (map (fun row =>
            if (Row.id row =? Row.id current)%Z then with_completed first row else row)
       rows)
  = rows.
Proof.
  intros Hnodup Hin Hcompleted.
  rewrite map_map; rewrite <- (map_id rows) at 2.
  apply map_ext_in; intros row Hrow.
  destruct (Z.eqb_spec (Row.id row) (Row.id current)) as [Heq|Hne].
  - simpl; rewrite Heq, Z.eqb_refl.
    assert (row = current) as ->.
    { pose proof (filter_unique_id rows current Hnodup Hin) as Hone.
      assert (Hmem : In row (filter (fun r => (Row.id r =? Row.id current)%Z) rows))
        by (apply filter_In; split; [assumption | apply Z.eqb_eq; assumption]).
      rewrite Hone in Hmem; destruct Hmem as [<-|[]]; reflexivity. }
    destruct current; simpl in *; subst; reflexivity.
  - apply Z.eqb_neq in Hne; rewrite Hne; reflexivity.
Qed.

Lemma unique_row (rows : list Row.t) (a b : Row.t) :
  NoDup (map Row.id rows) ->
  In a rows -> In b rows -> Row.id a = Row.id b -> a = b.
Proof.
  intros Hnodup Ha Hb Heq.
  assert (Hmem : In a (filter (fun row => (Row.id row =? Row.id b)%Z) rows))
    by (apply filter_In; split; [assumption | apply Z.eqb_eq; assumption]).
  rewrite (filter_unique_id rows b Hnodup Hb) in Hmem.
  destruct Hmem as [<-|[]]; reflexivity.
Qed.

Lemma filter_deleted (rows : list Row.t) (id : Z) :
  filter (fun row => (Row.id row =? id)%Z)
    (filter (fun row => negb (Row.id row =? id)%Z) rows) = [].
Proof.
  induction rows as [|row rest IH]; simpl; [reflexivity|].
  destruct (Row.id row =? id)%Z eqn:E; simpl; rewrite ?E; exact IH.
Qed.

Lemma listed_filter (rows : list Row.t) (id : Z) :
  filter (fun item => negb (Todo.id item =? id)%Z) (map listed rows)
  = map listed (filter (fun row => negb (Row.id row =? id)%Z) rows).
Proof.
  induction rows as [|row rest IH]; simpl; [reflexivity|].
  destruct (Row.id row =? id)%Z; simpl; rewrite IH; reflexivity.
Qed.

Section InMemory.

Variable fresh : list Row.t -> Z.

Lemma memory_list (rows : list Row.t) :
  LIST_TODOS (memory_db fresh) rows = (rows, Normal {| todos := map listed rows |}).
Proof. reflexivity. Qed.

Lemma memory_toggle (rows : list Row.t) (current : Row.t) :
  NoDup (map Row.id rows) ->
  In current rows ->
  TOGGLE_TODO (memory_db fresh) (Row.id current) rows
  = (map (fun row =>
            if (Row.id row =? Row.id current)%Z
            then with_completed (newCompletedStatus (Row.completed current)) row
            else row)
       rows,
     Normal {| todo := listed (with_completed
                                 (newCompletedStatus (Row.completed current))
                                 current) |}).
Proof.
  intros Hnodup Hin.
  unfold TOGGLE_TODO, st_bind; simpl.
  rewrite (filter_unique_id rows current Hnodup Hin); simpl.
  rewrite filter_updated, (filter_unique_id rows current Hnodup Hin).
  reflexivity.
Qed.

(** A toggle that succeeds found a row of that identifier. *)
Lemma memory_toggle_found
    (rows rows' : list Row.t) (id : Z) (out : TodoOutput) :
  TOGGLE_TODO (memory_db fresh) id rows = (rows', Normal out) ->
  exists current, In current rows /\ Row.id current = id.
Proof.
  unfold TOGGLE_TODO, st_bind; simpl.
  destruct (filter (fun row => (Row.id row =? id)%Z) rows)
    as [|current more] eqn:Hfound; simpl; [discriminate|].
  intros _; exists current.
  assert (Hmem : In current (filter (fun row => (Row.id row =? id)%Z) rows))
    by (rewrite Hfound; left; reflexivity).
  apply filter_In in Hmem; destruct Hmem as [Hin Hid].
  apply Z.eqb_eq in Hid; auto.
Qed.

(** On a table where identifiers are not repeated, toggling a todo whose
    [completed] is 0 or 1 twice gives the table back; the two reports are
    opposite, and the second is the todo as it was listed at first. *)
Theorem toggle_twice_restores (rows : list Row.t) (current : Row.t) :
  NoDup (map Row.id rows) ->
  In current rows ->
  Row.completed current = Some 0%Z \/ Row.completed current = Some 1%Z ->
  exists rows1 out1 out2,
    TOGGLE_TODO (memory_db fresh) (Row.id current) rows = (rows1, Normal out1)
    /\ TOGGLE_TODO (memory_db fresh) (Row.id current) rows1 = (rows, Normal out2)
    /\ Todo.completed (todo out1) = negb (Todo.completed (todo out2))
    /\ todo out2 = listed current.
Proof.
  intros Hnodup Hin Hbit.
  set (status := newCompletedStatus (Row.completed current)).
  set (rows1 :=
         map (fun row =>
                if (Row.id row =? Row.id current)%Z
                then with_completed status row else row) rows).
  assert (Hin1 : In (with_completed status current) rows1).
  { unfold rows1; apply in_map_iff; exists current; split; [|assumption].
    rewrite Z.eqb_refl; reflexivity. }
  assert (Hnodup1 : NoDup (map Row.id rows1))
    by (unfold rows1; rewrite update_keeps_ids; assumption).
  pose proof (memory_toggle rows current Hnodup Hin) as H1.
  pose proof (memory_toggle rows1 (with_completed status current) Hnodup1 Hin1) as H2.
  simpl in H1, H2; fold status rows1 in H1.
  assert (Hback : Row.completed current = Some (newCompletedStatus (Some status)))
    by (unfold status; destruct Hbit as [-> | ->]; reflexivity).
  exists rows1; eexists; eexists; split; [exact H1|]; split; [|split].
  - rewrite H2; f_equal.
    unfold rows1; apply update_restores; assumption.
  - simpl; unfold status; destruct Hbit as [-> | ->]; reflexivity.
  - simpl; unfold status, listed; destruct current as [i t c]; simpl in *.
    destruct Hbit as [-> | ->]; reflexivity.
Qed.

(** Once [DELETE_TODO] has succeeded, the table holds the other rows and
    none for that identifier, and toggling or deleting the same identifier
    again throws [Todo not found]. *)
Theorem deleted_todo_is_gone
    (rows rows' : list Row.t) (id : Z) (out : DeleteTodoOutput) :
  DELETE_TODO (memory_db fresh) id rows = (rows', Normal out) ->
  out = {| success := true; deletedId := id |}
  /\ (forall row, In row rows' <-> In row rows /\ Row.id row <> id)
  /\ TOGGLE_TODO (memory_db fresh) id rows' = (rows', Abrupt (ErrorInstance "Todo not found"))
  /\ DELETE_TODO (memory_db fresh) id rows' = (rows', Abrupt (ErrorInstance "Todo not found")).
Proof.
  unfold DELETE_TODO, TOGGLE_TODO, st_bind; simpl.
  destruct (filter (fun row => (Row.id row =? id)%Z) rows) as [|found more];
    simpl; [discriminate|].
  intros [= <- <-].
  rewrite filter_deleted; simpl.
  split; [reflexivity|]; split; [|split; reflexivity].
  intros row; rewrite filter_In, negb_true_iff, Z.eqb_neq; reflexivity.
Qed.

(** The view stays in step with the table.  After a toggle that succeeds
    on a table where identifiers are not repeated, the updater of
    [useToggleTodo], given the output of the tool and the list cached
    before, yields the list that [LIST_TODOS] returns afterwards. *)
Theorem toggle_keeps_cache_in_step
    (rows rows' : list Row.t) (id : Z) (out : TodoOutput)
    (before after : ListTodosOutput) :
  NoDup (map Row.id rows) ->
  LIST_TODOS (memory_db fresh) rows = (rows, Normal before) ->
  TOGGLE_TODO (memory_db fresh) id rows = (rows', Normal out) ->
  LIST_TODOS (memory_db fresh) rows' = (rows', Normal after) ->
  useToggleTodo_onSuccess out (Some before) = Some after.
Proof.
  intros Hnodup Hbefore Htoggle Hafter.
  destruct (memory_toggle_found rows rows' id out Htoggle) as (current & Hin & <-).
  rewrite (memory_toggle rows current Hnodup Hin) in Htoggle.
  injection Htoggle as <- <-.
  rewrite memory_list in Hbefore, Hafter.
  injection Hbefore as <-; injection Hafter as <-.
  unfold useToggleTodo_onSuccess; simpl; do 2 f_equal.
  rewrite !map_map; apply map_ext_in; intros row Hrow; simpl.
  destruct (Z.eqb_spec (Row.id row) (Row.id current)) as [Heq|Hne];
    [|reflexivity].
  rewrite (unique_row rows row current Hnodup Hrow Hin Heq); reflexivity.
Qed.

(** After a deletion or a generation that succeeds, the updater of the
    hook, given the output of the tool and the list cached before, yields
    the list that [LIST_TODOS] returns afterwards. *)
Theorem delete_and_generate_keep_cache_in_step
    (rows rows' : list Row.t) (before after : ListTodosOutput) :
  LIST_TODOS (memory_db fresh) rows = (rows, Normal before) ->
  LIST_TODOS (memory_db fresh) rows' = (rows', Normal after) ->
  (forall id out,
     DELETE_TODO (memory_db fresh) id rows = (rows', Normal out) ->
     useDeleteTodo_onSuccess out (Some before) = Some after)
  /\ (forall env prompt out,
        GENERATE_TODO_WITH_AI env (memory_db fresh) prompt rows = (rows', Normal out) ->
        useGenerateTodoWithAI_onSuccess out (Some before) = Some after).
Proof.
  intros Hbefore Hafter.
  rewrite memory_list in Hbefore, Hafter.
  injection Hbefore as <-; injection Hafter as <-.
  split.
  - intros id out; unfold DELETE_TODO, st_bind; simpl.
    destruct (filter (fun row => (Row.id row =? id)%Z) rows) as [|found more];
      simpl; [discriminate|].
    intros [= <- <-]; unfold useDeleteTodo_onSuccess; simpl.
    rewrite listed_filter; reflexivity.
  - intros env prompt out; unfold GENERATE_TODO_WITH_AI, st_bind, st_await; simpl.
    destruct (AI_GENERATE_OBJECT env (todo_generation_args prompt))
      as [generatedTodo|e]; [|discriminate].
    destruct generatedTodo; simpl; try discriminate;
      try match goal with
          | |- context [if ?b then _ else _] => destruct b; [discriminate|]
          end;
      simpl; intros [= <- <-]; unfold useGenerateTodoWithAI_onSuccess; simpl;
      rewrite map_app; reflexivity.
Qed.

End InMemory.

Lemma two_rows_distinct : NoDup (map Row.id two_rows).
Proof.
  repeat constructor; simpl; intuition discriminate.
Qed.

Lemma toggle_twice_restores_witness :
  exists rows1 out1 out2,
    TOGGLE_TODO (memory_db (fun _ => 3%Z)) (Row.id row_milk) two_rows
    = (rows1, Normal out1)
    /\ TOGGLE_TODO (memory_db (fun _ => 3%Z)) (Row.id row_milk) rows1
       = (two_rows, Normal out2)
    /\ Todo.completed (todo out1) = negb (Todo.completed (todo out2))
    /\ todo out2 = listed row_milk.
Proof.
  apply (toggle_twice_restores (fun _ => 3%Z) two_rows row_milk).
  - exact two_rows_distinct.
  - left; reflexivity.
  - left; reflexivity.
Defined.

Lemma deleted_todo_is_gone_witness :
  {| success := true; deletedId := 1 |} = {| success := true; deletedId := 1 |}
  /\ (forall row, In row [row_rent] <-> In row two_rows /\ Row.id row <> 1%Z)
  /\ TOGGLE_TODO (memory_db (fun _ => 3%Z)) 1 [row_rent]
     = ([row_rent], Abrupt (ErrorInstance "Todo not found"))
  /\ DELETE_TODO (memory_db (fun _ => 3%Z)) 1 [row_rent]
     = ([row_rent], Abrupt (ErrorInstance "Todo not found")).
Proof.
  apply (deleted_todo_is_gone (fun _ => 3%Z) two_rows [row_rent] 1%Z
           {| success := true; deletedId := 1 |}).
  reflexivity.
Defined.

Lemma toggle_keeps_cache_in_step_witness :
  useToggleTodo_onSuccess
    {| todo := listed (with_completed 0 row_rent) |}
    (Some {| todos := map listed two_rows |})
  = Some {| todos := map listed [row_milk; with_completed 0 row_rent] |}.
Proof.
  apply (toggle_keeps_cache_in_step (fun _ => 3%Z)
           two_rows [row_milk; with_completed 0 row_rent] 2%Z).
  - exact two_rows_distinct.
  - reflexivity.
  - reflexivity.
  - reflexivity.
Defined.

Lemma delete_and_generate_keep_cache_in_step_witness :
  useDeleteTodo_onSuccess {| success := true; deletedId := 1 |}
    (Some {| todos := map listed two_rows |})
  = Some {| todos := map listed [row_rent] |}.
Proof.
  apply (proj1 (delete_and_generate_keep_cache_in_step (fun _ => 3%Z)
                  two_rows [row_rent]
                  {| todos := map listed two_rows |}
                  {| todos := map listed [row_rent] |}
                  eq_refl eq_refl)
           1%Z).
  reflexivity.
Defined.

(** ** The updaters of the cache *)

(** The updater of [useToggleTodo] keeps the identifiers of the cached
    list, in their order: every todo that has the identifier of the todo
    returned takes its place, the others stay; when no cached todo has
    that identifier the list is unchanged. *)
Theorem toggle_updater_keeps_identifiers
    (data : TodoOutput) (cached : ListTodosOutput) :
  exists updated,
    useToggleTodo_onSuccess data (Some cached) = Some updated
    /\ map Todo.id (todos updated) = map Todo.id (todos cached)
    /\ (forall item,
          In item (todos updated) ->
          item = todo data
          \/ (In item (todos cached) /\ Todo.id item <> Todo.id (todo data)))
    /\ ((forall item, In item (todos cached) -> Todo.id item <> Todo.id (todo data)) ->
        updated = cached).
Proof.
  eexists; split; [reflexivity|]; simpl; split; [|split].
  - rewrite map_map; apply map_ext; intros item.
    destruct (Z.eqb_spec (Todo.id item) (Todo.id (todo data))) as [Heq|_];
      [symmetry; exact Heq | reflexivity].
  - intros item Hin; apply in_map_iff in Hin; destruct Hin as (old & <- & Hold).
    destruct (Z.eqb_spec (Todo.id old) (Todo.id (todo data))); auto.
  - intros Habsent; destruct cached as [items]; simpl in *; f_equal.
    rewrite <- (map_id items) at 2; apply map_ext_in; intros item Hin.
    apply Habsent, Z.eqb_neq in Hin; rewrite Hin; reflexivity.
Qed.

(** The updater of [useDeleteTodo] keeps exactly the cached todos whose
    identifier is not the deleted one, and applying it again changes
    nothing. *)
Theorem delete_updater_removes_the_todo
    (data : DeleteTodoOutput) (cached : ListTodosOutput) :
  exists updated,
    useDeleteTodo_onSuccess data (Some cached) = Some updated
    /\ (forall item,
          In item (todos updated)
          <-> In item (todos cached) /\ Todo.id item <> deletedId data)
    /\ useDeleteTodo_onSuccess data (Some updated) = Some updated.
Proof.
  eexists; split; [reflexivity|]; simpl; split.
  - intros item; rewrite filter_In, negb_true_iff, Z.eqb_neq; reflexivity.
  - unfold useDeleteTodo_onSuccess; simpl; do 2 f_equal.
    induction (todos cached) as [|item rest IH]; simpl; [reflexivity|].
    destruct (Todo.id item =? deletedId data)%Z eqn:E; simpl;
      rewrite ?E; simpl; rewrite ?IH; reflexivity.
Qed.

(** A todo appended to the cached list by the updater of
    [useGenerateTodoWithAI] and then removed by the updater of
    [useDeleteTodo] leaves the list as it was, provided that no cached todo
    had its identifier. *)
Theorem generated_then_deleted
    (added : TodoOutput) (removed : DeleteTodoOutput) (cached : ListTodosOutput) :
  deletedId removed = Todo.id (todo added) ->
  (forall item, In item (todos cached) -> Todo.id item <> Todo.id (todo added)) ->
  useDeleteTodo_onSuccess removed
    (useGenerateTodoWithAI_onSuccess added (Some cached))
  = Some cached.
Proof.
  intros Hid Hfresh; destruct cached as [items]; simpl in *.
  unfold useDeleteTodo_onSuccess; simpl; do 2 f_equal.
  rewrite filter_app; simpl; rewrite Hid, Z.eqb_refl; simpl.
  rewrite app_nil_r.
  induction items as [|item rest IH]; simpl; [reflexivity|].
  assert (Hne : (Todo.id item =? Todo.id (todo added))%Z = false)
    by (apply Z.eqb_neq, Hfresh; left; reflexivity).
  rewrite Hne; simpl; f_equal.
  apply IH; intros other Hother; apply Hfresh; right; assumption.
Qed.

Lemma generated_then_deleted_witness :
  useDeleteTodo_onSuccess {| success := true; deletedId := 3 |}
    (useGenerateTodoWithAI_onSuccess
       {| todo := {| Todo.id := 3; Todo.title := Some "tea"; Todo.completed := false |} |}
       (Some {| todos := map listed two_rows |}))
  = Some {| todos := map listed two_rows |}.
Proof.
  apply (generated_then_deleted
           {| todo := {| Todo.id := 3; Todo.title := Some "tea"; Todo.completed := false |} |}
           {| success := true; deletedId := 3 |}
           {| todos := map listed two_rows |}).
  - reflexivity.
  - simpl; intros item [<-|[<-|[]]]; discriminate.
Defined.
